(** * discord_components.button: a shallow embedding and its properties

    The module [src/discord_components/button.py] defines the style codes
    ([ButtonStyle]) and the [Button] component: a validated constructor,
    property setters, and the conversion to and from the wire dictionary.

    Python is dynamically typed, so the embedding works over a small universe
    of Python values ([value]); exceptions are an explicit [result].  The two
    sources of non-determinism, [random.randint] and [uuid.uuid1], take the
    outcome of the underlying generator as an argument. *)

From Stdlib Require Import ZArith NArith String Ascii List Lia Bool.
From stdpp Require Import base option strings gmap.

#[local] Set Warnings "-register-all".
#[local] Open Scope string_scope.
#[local] Open Scope Z_scope.

(** ** Python values *)

(** The three attributes shared by [discord.Emoji] and
    [discord.PartialEmoji]. *)
Module EmojiAttrs.
Record t (V : Type) : Type := mk {
  name : V;
  animated : V;
  id : V
}.
Arguments mk {V} _ _ _.
Arguments name {V} _.
Arguments animated {V} _.
Arguments id {V} _.
End EmojiAttrs.

(** The values that can reach the code: [None], booleans, integers, strings,
    the two emoji classes of discord.py and string-keyed dictionaries.
    Floats, lists and user classes are left out. *)
Inductive value : Type :=
| VNone
| VBool (b : bool)
| VInt (n : Z)
| VStr (s : string)
| VEmoji (e : EmojiAttrs.t value)
| VPartialEmoji (p : EmojiAttrs.t value)
| VDict (d : gmap string value).

Abbreviation PartialEmoji := (EmojiAttrs.t value).
Abbreviation dict := (gmap string value).

(** [PartialEmoji(name=..., animated=False, id=None)]: the keyword defaults
    of discord.py's constructor. *)
Definition PartialEmoji_of_name (n : value) : PartialEmoji :=
  EmojiAttrs.mk n (VBool false) VNone.

(** Python truth value testing.  Neither emoji class defines [__bool__] or
    [__len__], so their instances are always true. *)
Definition truthy (v : value) : bool :=
  match v with
  | VNone => false
  | VBool b => b
  | VInt n => negb (n =? 0)
  | VStr s => negb (String.eqb s "")
  | VEmoji _ => true
  | VPartialEmoji _ => true
  | VDict d => negb (bool_decide (d = ∅))
  end.

(** The integer a value stands for in a numeric comparison
    ([bool] is a subclass of [int]). *)
Definition as_number (v : value) : option Z :=
  match v with
  | VInt n => Some n
  | VBool b => Some (Z.b2z b)
  | _ => None
  end.

(** [v == n] for an integer constant [n]; a value that is not a number
    compares unequal. *)
Definition eq_int (v : value) (n : Z) : bool :=
  match as_number v with
  | Some m => m =? n
  | None => false
  end.

(** [x or y]. *)
Definition py_or (x y : value) : value := if truthy x then x else y.

(** [d.get(k, default)]. *)
Definition get (d : dict) (k : string) (default : value) : value :=
  match d !! k with
  | Some v => v
  | None => default
  end.

(** ** Exceptions *)

Inductive exn : Type :=
| InvalidArgument (msg : string)
| KeyError (key : string)
| TypeError.

Inductive result (A : Type) : Type :=
| Ok (a : A)
| Raise (e : exn).
Arguments Ok {A} _.
Arguments Raise {A} _.

(** Sequencing: an exception raised by the first computation propagates. *)
#[global] Instance result_bind : MBind result :=
  fun A B (k : A -> result B) (r : result A) =>
    match r with
    | Ok a => k a
    | Raise e => Raise e
    end.

(** [lo <= v <= hi] for integer constants [lo] and [hi]: ordering a value
    that is not a number against an [int] raises [TypeError]. *)
Definition between (lo : Z) (v : value) (hi : Z) : result bool :=
  match as_number v with
  | Some n => Ok ((lo <=? n) && (n <=? hi))
  | None => Raise TypeError
  end.

(** [d[k]]. *)
Definition getitem (d : dict) (k : string) : result value :=
  match d !! k with
  | Some v => Ok v
  | None => Raise (KeyError k)
  end.

(** ** The library functions the module calls *)

(** [random.randint(a, b)] returns an integer [N] with [a <= N <= b]; [r] is
    the raw draw of the generator, reduced into the range. *)
Definition randint (a b : Z) (r : Z) : Z := a + r mod (b - a + 1).

Definition hex_digit (d : N) : ascii :=
  nth (N.to_nat d) (list_ascii_of_string "0123456789abcdef") "0"%char.

(** The [k] low hexadecimal digits of [n], most significant first. *)
Fixpoint hex_fixed (k : nat) (n : N) (acc : string) : string :=
  match k with
  | O => acc
  | S k' => hex_fixed k' (N.div n 16) (String (hex_digit (N.modulo n 16)) acc)
  end.

(** [str(u)] for a [uuid.UUID] whose 128-bit integer is [u]:
    [hex = '%032x' % u], cut as 8-4-4-4-12. *)
Definition str_uuid (u : N) : string :=
  let hex := hex_fixed 32 u "" in
  substring 0 8 hex +:+ "-" +:+ substring 8 4 hex +:+ "-" +:+
  substring 12 4 hex +:+ "-" +:+ substring 16 4 hex +:+ "-" +:+
  substring 20 12 hex.

(** [PartialEmoji.to_dict] of discord.py: the name always, the id and the
    animated flag only when they are true (the wire shape
    [{name, animated?, id?}]). *)
Definition PartialEmoji_to_dict (p : PartialEmoji) : dict :=
  let o : dict := {[ "name" := EmojiAttrs.name p ]} in
  let o := if truthy (EmojiAttrs.id p) then <["id" := EmojiAttrs.id p]> o else o in
  if truthy (EmojiAttrs.animated p)
  then <["animated" := EmojiAttrs.animated p]> o else o.

(** ** ButtonStyle *)

Module ButtonStyle.

Definition blue : Z := 1.
Definition gray : Z := 2.
Definition grey : Z := 2.
Definition green : Z := 3.
Definition red : Z := 4.
Definition URL : Z := 5.

Definition randomColor (r : Z) : Z := randint 1 red r.

Definition to_dict : gmap string Z :=
  {[ "blue" := blue; "gray" := gray; "green" := green; "red" := red;
     "URL" := URL ]}.

End ButtonStyle.

(** ** Button *)

(** The slots of a [Button].  Every assignment to [_emoji] in the class
    stores [None] or a [PartialEmoji], which the type records. *)
Record Button : Type := mkButton {
  _style : value;
  _label : value;
  _id : value;
  _url : value;
  _disabled : value;
  _emoji : option PartialEmoji
}.

Module Button.

(** The [isinstance] chain of [__init__] that fills [_emoji]: an [Emoji]
    is converted, a [PartialEmoji] kept, a [str] wrapped, anything else
    dropped. *)
Definition emoji_of_arg (emoji : value) : option PartialEmoji :=
  match emoji with
  | VEmoji e =>
      Some (EmojiAttrs.mk (EmojiAttrs.name e) (EmojiAttrs.animated e)
              (EmojiAttrs.id e))
  | VPartialEmoji p => Some p
  | VStr s => Some (PartialEmoji_of_name (VStr s))
  | _ => None
  end.

(** [Button.__init__]; [uuid] is the integer of the UUID that [uuid1()]
    returns when it is called.  All arguments are keyword arguments; an
    omitted one takes its default ([None], [ButtonStyle.gray], [None],
    [None], [False], [None]). *)
Definition __init__ (uuid : N)
    (label style id url disabled emoji : value) : result Button :=
  if eq_int style ButtonStyle.URL && negb (truthy url) then
    Raise (InvalidArgument
             "You must provide a URL when the style is set to URL.")
  else if eq_int style ButtonStyle.URL && truthy id then
    Raise (InvalidArgument "Both ID and URL are set.")
  else
    in_range ← between 1 style ButtonStyle.URL;
    if negb in_range then
      Raise (InvalidArgument "Style must be between 1, 5.")
    else if negb (truthy label) && negb (truthy emoji) then
      Raise (InvalidArgument "Label or emoji must be given.")
    else
      Ok {| _style := style;
            _label := label;
            _url := url;
            _disabled := disabled;
            _emoji := emoji_of_arg emoji;
            _id := if negb (eq_int style ButtonStyle.URL)
                   then py_or id (VStr (str_uuid uuid))
                   else VNone |}.

(** The property getters. *)
Definition style (self : Button) : value := _style self.
Definition label (self : Button) : value := _label self.
Definition id (self : Button) : value := _id self.
Definition url (self : Button) : value := _url self.
Definition disabled (self : Button) : value := _disabled self.
Definition emoji (self : Button) : option PartialEmoji := _emoji self.

(** [Button.to_dict]. *)
Definition to_dict (self : Button) : dict :=
  let data : dict :=
    {[ "type" := VInt 2;
       "style" := style self;
       "label" := label self;
       "custom_id" := id self;
       "url" := if eq_int (style self) ButtonStyle.URL then url self else VNone;
       "disabled" := disabled self ]} in
  match emoji self with
  | Some e => <["emoji" := VDict (PartialEmoji_to_dict e)]> data
  | None => data
  end.

(** The property setters: each returns the updated object, or raises and
    leaves it as it was. *)
Definition set_style (self : Button) (value : value) : result Button :=
  if eq_int value ButtonStyle.URL && truthy (id self) then
    Raise (InvalidArgument "Both ID and URL are set.")
  else
    in_range ← between 1 value ButtonStyle.URL;
    if negb in_range then
      Raise (InvalidArgument "Style must be between 1, 5.")
    else
      Ok {| _style := value; _label := _label self; _id := _id self;
            _url := _url self; _disabled := _disabled self;
            _emoji := _emoji self |}.

Definition set_label (self : Button) (value : value) : result Button :=
  if negb (truthy value) && negb (bool_decide (is_Some (emoji self))) then
    Raise (InvalidArgument "Label should not be empty.")
  else
    Ok {| _style := _style self; _label := value; _id := _id self;
          _url := _url self; _disabled := _disabled self;
          _emoji := _emoji self |}.

Definition set_url (self : Button) (value : value) : result Button :=
  if truthy value && negb (eq_int (style self) ButtonStyle.URL) then
    Raise (InvalidArgument
             "Button style is not URL. You shouldn't provide URL.")
  else
    Ok {| _style := _style self; _label := _label self; _id := _id self;
          _url := value; _disabled := _disabled self;
          _emoji := _emoji self |}.

Definition set_id (self : Button) (value : value) : result Button :=
  if eq_int (style self) ButtonStyle.URL then
    Raise (InvalidArgument
             "Button style is set to URL. You shouldn't provide ID.")
  else
    Ok {| _style := _style self; _label := _label self; _id := value;
          _url := _url self; _disabled := _disabled self;
          _emoji := _emoji self |}.

Definition set_disabled (self : Button) (value : value) : result Button :=
  Ok {| _style := _style self; _label := _label self; _id := _id self;
        _url := _url self; _disabled := value; _emoji := _emoji self |}.

Definition set_emoji (self : Button) (emoji : value) : result Button :=
  match emoji with
  | VPartialEmoji p =>
      Ok {| _style := _style self; _label := _label self; _id := _id self;
            _url := _url self; _disabled := _disabled self;
            _emoji := Some p |}
  | VStr s =>
      Ok {| _style := _style self; _label := _label self; _id := _id self;
            _url := _url self; _disabled := _disabled self;
            _emoji := Some (PartialEmoji_of_name (VStr s)) |}
  | _ => Ok self
  end.

(** The [emoji=] argument that [from_json] builds: a [PartialEmoji] from
    the entries of the wire emoji when that is true, else [None].
    Subscripting a value that is no dictionary raises [TypeError]. *)
Definition emoji_of_wire (emoji : value) : result value :=
  if truthy emoji then
    match emoji with
    | VDict e =>
        name ← getitem e "name";
        Ok (VPartialEmoji
              (EmojiAttrs.mk name (get e "animated" (VBool false))
                 (get e "id" VNone)))
    | _ => Raise TypeError
    end
  else Ok VNone.

(** [Button.from_json]; the keyword arguments are evaluated in the order
    they are written, [style] first. *)
Definition from_json (uuid : N) (data : dict) : result Button :=
  let emoji := get data "emoji" VNone in
  style ← getitem data "style";
  let label := get data "label" VNone in
  let id := get data "custom_id" VNone in
  let url := get data "url" VNone in
  let disabled := get data "disabled" (VBool false) in
  emoji_arg ← emoji_of_wire emoji;
  __init__ uuid label style id url disabled emoji_arg.

End Button.

(** ** Sequences of setter calls *)

Inductive op : Type :=
| SetStyle (v : value)
| SetLabel (v : value)
| SetUrl (v : value)
| SetId (v : value)
| SetDisabled (v : value)
| SetEmoji (v : value).

Definition apply_op (b : Button) (o : op) : result Button :=
  match o with
  | SetStyle v => Button.set_style b v
  | SetLabel v => Button.set_label b v
  | SetUrl v => Button.set_url b v
  | SetId v => Button.set_id b v
  | SetDisabled v => Button.set_disabled b v
  | SetEmoji v => Button.set_emoji b v
  end.

(** Run the calls in order; the first exception ends the run. *)
Fixpoint run (b : Button) (ops : list op) : result Button :=
  match ops with
  | [] => Ok b
  | o :: rest => b' ← apply_op b o; run b' rest
  end.

(** ** The invariants of the data model, in the words of the specification *)

Definition is_Link (b : Button) : bool := eq_int (_style b) ButtonStyle.URL.
Definition absent (v : value) : bool :=
  match v with VNone => true | _ => false end.
Definition present (v : value) : bool := negb (absent v).
Definition non_empty (v : value) : bool := truthy v.
Definition empty_or_absent (v : value) : bool := negb (truthy v).

(** 1. [style == Link] implies url non-empty and identifier absent. *)
Definition inv_link (b : Button) : bool :=
  implb (is_Link b) (non_empty (_url b) && absent (_id b)).

(** 2. [style != Link] implies identifier present and url absent. *)
Definition inv_interactive (b : Button) : bool :=
  implb (negb (is_Link b)) (present (_id b) && absent (_url b)).

(** 3. label non-empty or emoji present. *)
Definition inv_visible (b : Button) : bool :=
  non_empty (_label b) || bool_decide (is_Some (_emoji b)).

(** 4. style in [1,5]. *)
Definition inv_style (b : Button) : bool :=
  match as_number (_style b) with
  | Some n => (1 <=? n) && (n <=? 5)
  | None => false
  end.

Definition invariants (b : Button) : bool :=
  inv_link b && inv_interactive b && inv_visible b && inv_style b.

(** What the setters keep of invariant 1: a Link button has no non-empty
    identifier. *)
Definition inv_link_identifier (b : Button) : bool :=
  implb (is_Link b) (empty_or_absent (_id b)).

Definition design_invariants (b : Button) : bool :=
  inv_style b && inv_visible b && inv_link_identifier b.

(** The types [__init__] converts or keeps as the emoji: [None], [Emoji],
    [PartialEmoji] and [str]. *)
Definition emoji_supported (emoji : value) : bool :=
  match emoji with
  | VNone | VEmoji _ | VPartialEmoji _ | VStr _ => true
  | _ => false
  end.

(** [isinstance(v, PartialEmoji)] and [isinstance(v, str)]. *)
Definition isinstance_PartialEmoji (v : value) : bool :=
  match v with VPartialEmoji _ => true | _ => false end.
Definition isinstance_str (v : value) : bool :=
  match v with VStr _ => true | _ => false end.

(** An emoji as the data model types it: a boolean [animated] flag and an
    [id] that is absent or non-empty. *)
Definition emoji_typed (e : option PartialEmoji) : bool :=
  match e with
  | None => true
  | Some p =>
      match EmojiAttrs.animated p with VBool _ => true | _ => false end
      && (absent (EmojiAttrs.id p) || non_empty (EmojiAttrs.id p))
  end.

(** ** The failure conditions, in the words of the specification *)

Definition outside_1_5 (style : Z) : bool :=
  negb ((1 <=? style) && (style <=? 5)).

(** Construction fails when: style is Link and url is empty or absent; style
    is Link and an identifier is supplied; style is outside [1,5]; both
    label and emoji are empty or absent. *)
Definition claimed_init_rejects
    (label : value) (style : Z) (id url emoji : value) : bool :=
  ((style =? ButtonStyle.URL) && empty_or_absent url)
  || ((style =? ButtonStyle.URL) && present id)
  || outside_1_5 style
  || (empty_or_absent label && empty_or_absent emoji).

(** The same with the second condition read as: a non-empty identifier is
    supplied. *)
Definition init_rejects
    (label : value) (style : Z) (id url emoji : value) : bool :=
  ((style =? ButtonStyle.URL) && empty_or_absent url)
  || ((style =? ButtonStyle.URL) && non_empty id)
  || outside_1_5 style
  || (empty_or_absent label && empty_or_absent emoji).

(** [set style(v)] fails when [v] is Link and an identifier is currently
    set, or when [v] is outside [1,5]. *)
Definition claimed_set_style_rejects (b : Button) (v : Z) : bool :=
  ((v =? ButtonStyle.URL) && present (_id b)) || outside_1_5 v.

(** The same with the first condition read as: a non-empty identifier is
    currently set. *)
Definition set_style_rejects (b : Button) (v : Z) : bool :=
  ((v =? ButtonStyle.URL) && non_empty (_id b)) || outside_1_5 v.

(** Whether a call raised [InvalidArgument]. *)
Definition raises_InvalidArgument {A : Type} (r : result A) : bool :=
  match r with Raise (InvalidArgument _) => true | _ => false end.

Definition succeeds {A : Type} (r : result A) : bool :=
  match r with Ok _ => true | Raise _ => false end.

(** ** Sample objects *)

Definition go_button : Button :=
  {| _style := VInt 2; _label := VStr "Go"; _id := VStr "go-1";
     _url := VNone; _disabled := VBool false; _emoji := None |}.

Definition visit_button : Button :=
  {| _style := VInt 5; _label := VStr "Visit"; _id := VNone;
     _url := VStr "https://example.com"; _disabled := VBool false;
     _emoji := None |}.

(** A gray button whose [_url] slot holds a url all the same. *)
Definition stale_url_button : Button :=
  {| _style := VInt 2; _label := VStr "Go"; _id := VStr "go-1";
     _url := VStr "https://example.com"; _disabled := VBool false;
     _emoji := None |}.

(** A gray button whose identifier was set to the empty string. *)
Definition empty_id_button : Button :=
  {| _style := VInt 2; _label := VStr "Go"; _id := VStr "";
     _url := VNone; _disabled := VBool false; _emoji := None |}.

Definition smile : PartialEmoji :=
  EmojiAttrs.mk (VStr "smile") (VBool false) VNone.

(** ** Further notions used by the properties *)

(** The keys [from_json] reads from the wire dictionary. *)
Definition wire_keys : list string :=
  ["style"; "label"; "custom_id"; "url"; "disabled"; "emoji"].

(** Whether a sequence of setter calls assigns the style. *)
Definition restyles (ops : list op) : bool :=
  existsb (fun o => match o with SetStyle _ => true | _ => false end) ops.

(** A [PartialEmoji] as [from_json] rebuilds it from [to_dict]'s entry: an
    [animated] or [id] that is false was not written and reads as the
    default. *)
Definition emoji_read_back (p : PartialEmoji) : PartialEmoji :=
  EmojiAttrs.mk (EmojiAttrs.name p)
    (if truthy (EmojiAttrs.animated p) then EmojiAttrs.animated p
     else VBool false)
    (if truthy (EmojiAttrs.id p) then EmojiAttrs.id p else VNone).

(** The messages of the four [InvalidArgument]s of [__init__]. *)
Definition init_messages : list string :=
  ["You must provide a URL when the style is set to URL.";
   "Both ID and URL are set.";
   "Style must be between 1, 5.";
   "Label or emoji must be given."].

(** * Properties *)

Import Button.

(** ** Library facts *)

Lemma randint_range (a b r : Z) : a <= b -> a <= randint a b r <= b.
Proof.
  intros Hab. unfold randint.
  pose proof (Z.mod_pos_bound r (b - a + 1)) as Hm. lia.
Qed.

Lemma randint_onto (a b k : Z) : a <= k <= b -> randint a b (k - a) = k.
Proof.
  intros Hk. unfold randint. rewrite Z.mod_small; lia.
Qed.

Lemma hex_fixed_length (k : nat) (n : N) (acc : string) :
  String.length (hex_fixed k n acc) = (k + String.length acc)%nat.
Proof.
  revert n acc. induction k as [|k IH]; intros n acc; simpl; [reflexivity|].
  rewrite IH. simpl. lia.
Qed.

Lemma substring_length (s : string) (n m : nat) :
  (n + m <= String.length s)%nat -> String.length (substring n m s) = m.
Proof.
  revert n m. induction s as [|c s IH]; intros [|n] [|m] Hlen; simpl in *;
    try reflexivity; try lia.
  - rewrite IH; [reflexivity | lia].
  - apply IH. lia.
  - apply IH. lia.
Qed.

Lemma append_length (s t : string) :
  String.length (s +:+ t) = (String.length s + String.length t)%nat.
Proof. induction s as [|c s IH]; simpl; [reflexivity | now rewrite IH]. Qed.

(** A UUID prints as 36 characters. *)
Lemma str_uuid_length (u : N) : String.length (str_uuid u) = 36%nat.
Proof.
  unfold str_uuid.
  assert (Hh : String.length (hex_fixed 32 u "") = 32%nat)
    by (rewrite hex_fixed_length; reflexivity).
  rewrite !append_length, !substring_length by (rewrite Hh; lia).
  reflexivity.
Qed.

Lemma str_uuid_nonempty (u : N) : str_uuid u <> "".
Proof.
  intros H. pose proof (str_uuid_length u) as Hl. rewrite H in Hl. discriminate.
Qed.

Lemma truthy_str_uuid (u : N) : truthy (VStr (str_uuid u)) = true.
Proof.
  simpl. destruct (String.eqb_spec (str_uuid u) "") as [H|H]; [|reflexivity].
  now destruct (str_uuid_nonempty u).
Qed.

(** ** ButtonStyle *)

(** C8: whatever the generator draws, [randomColor] returns one of the four
    colour styles 1, 2, 3, 4 and never 5 ([URL]). *)
Theorem randomColor_is_a_colour (r : Z) :
  ButtonStyle.randomColor r ∈
    [ButtonStyle.blue; ButtonStyle.gray; ButtonStyle.green; ButtonStyle.red]
  /\ ButtonStyle.randomColor r <> ButtonStyle.URL.
Proof.
  pose proof (randint_range 1 ButtonStyle.red r) as H.
  unfold ButtonStyle.randomColor, ButtonStyle.blue, ButtonStyle.gray,
    ButtonStyle.green, ButtonStyle.red, ButtonStyle.URL in *.
  specialize (H ltac:(lia)). split; [|lia].
  rewrite !elem_of_cons. lia.
Qed.

(** Each of the four colours is drawn for some outcome of the generator. *)
Lemma randomColor_onto (k : Z) :
  1 <= k <= 4 -> ButtonStyle.randomColor (k - 1) = k.
Proof. intros Hk. apply randint_onto. exact Hk. Qed.

(** ** Serialization *)

Lemma to_dict_url (b : Button) :
  to_dict b !! "url" =
  Some (if eq_int (_style b) ButtonStyle.URL then _url b else VNone).
Proof. unfold to_dict. destruct (emoji b); reflexivity. Qed.

(** C7: for a button whose style is not URL, [to_dict] maps ["url"] to
    [None] whatever the [_url] slot holds; the stored url is emitted only
    when the style is URL. *)
Theorem to_dict_url_only_for_link (b : Button) :
  (eq_int (_style b) ButtonStyle.URL = false ->
   to_dict b !! "url" = Some VNone) /\
  (eq_int (_style b) ButtonStyle.URL = true ->
   to_dict b !! "url" = Some (_url b)).
Proof.
  rewrite to_dict_url. split; intros ->; reflexivity.
Qed.

Lemma to_dict_url_only_for_link_witness :
  to_dict stale_url_button !! "url" = Some VNone /\
  to_dict visit_button !! "url" = Some (VStr "https://example.com").
Proof.
  split.
  - exact (proj1 (to_dict_url_only_for_link stale_url_button) eq_refl).
  - exact (proj2 (to_dict_url_only_for_link visit_button) eq_refl).
Defined.

(** ** The emoji setter *)

(** C5: the emoji setter stores a [PartialEmoji] as it is and wraps a string
    as [PartialEmoji(name=...)]; for an argument of any other type it raises
    nothing and leaves the object, and so the stored emoji, unchanged. *)
Theorem set_emoji_spec (b : Button) (v : value) :
  (forall p, v = VPartialEmoji p ->
     set_emoji b v =
     Ok {| _style := _style b; _label := _label b; _id := _id b;
           _url := _url b; _disabled := _disabled b; _emoji := Some p |}) /\
  (forall s, v = VStr s ->
     set_emoji b v =
     Ok {| _style := _style b; _label := _label b; _id := _id b;
           _url := _url b; _disabled := _disabled b;
           _emoji := Some (EmojiAttrs.mk (VStr s) (VBool false) VNone) |}) /\
  (isinstance_PartialEmoji v = false -> isinstance_str v = false ->
     set_emoji b v = Ok b).
Proof.
  split; [|split].
  - intros p ->. reflexivity.
  - intros s ->. reflexivity.
  - intros Hp Hs. destruct v; simpl in *; try discriminate; reflexivity.
Qed.

Lemma set_emoji_spec_witness :
  set_emoji go_button (VInt 42) = Ok go_button /\
  set_emoji go_button (VPartialEmoji smile) =
    Ok {| _style := VInt 2; _label := VStr "Go"; _id := VStr "go-1";
          _url := VNone; _disabled := VBool false; _emoji := Some smile |} /\
  set_emoji go_button (VStr "smile") =
    Ok {| _style := VInt 2; _label := VStr "Go"; _id := VStr "go-1";
          _url := VNone; _disabled := VBool false; _emoji := Some smile |}.
Proof.
  split; [|split].
  - exact (proj2 (proj2 (set_emoji_spec go_button (VInt 42))) eq_refl eq_refl).
  - exact (proj1 (set_emoji_spec go_button (VPartialEmoji smile)) smile eq_refl).
  - exact (proj1 (proj2 (set_emoji_spec go_button (VStr "smile")))
             "smile" eq_refl).
Defined.

(** An [Emoji] and [None] are among the ignored arguments: the setter cannot
    clear the emoji. *)
Lemma set_emoji_ignores_None (b : Button) : set_emoji b VNone = Ok b.
Proof. reflexivity. Qed.

Lemma set_emoji_ignores_Emoji (b : Button) (e : EmojiAttrs.t value) :
  set_emoji b (VEmoji e) = Ok b.
Proof. reflexivity. Qed.

(** ** The style setter *)

(** The style setter, as the code has it, on an integer. *)
Lemma set_style_int (b : Button) (v : Z) :
  set_style b (VInt v) =
  if set_style_rejects b v then
    Raise (InvalidArgument
             (if (v =? ButtonStyle.URL) && truthy (_id b)
              then "Both ID and URL are set."
              else "Style must be between 1, 5."))
  else
    Ok {| _style := VInt v; _label := _label b; _id := _id b;
          _url := _url b; _disabled := _disabled b; _emoji := _emoji b |}.
Proof.
  unfold set_style, set_style_rejects, outside_1_5, between, eq_int, id,
    non_empty. simpl.
  destruct (v =? ButtonStyle.URL), (truthy (_id b)); simpl; try reflexivity;
    destruct ((1 <=? v) && (v <=? ButtonStyle.URL)) eqn:E;
    unfold ButtonStyle.URL in E; rewrite E; reflexivity.
Qed.

(** C4, as the code has it: on an integer [v] the style setter raises
    [InvalidArgument] exactly when [v] is URL while the identifier is
    non-empty, or [v] is outside [1,5]; otherwise it succeeds, assigns the
    style and leaves every other slot as it was. *)
Theorem set_style_spec (b : Button) (v : Z) :
  (set_style_rejects b v = true /\
   exists msg, set_style b (VInt v) = Raise (InvalidArgument msg)) \/
  (set_style_rejects b v = false /\
   set_style b (VInt v) =
   Ok {| _style := VInt v; _label := _label b; _id := _id b;
         _url := _url b; _disabled := _disabled b; _emoji := _emoji b |}).
Proof.
  rewrite set_style_int. destruct (set_style_rejects b v).
  - left. split; [reflexivity | eauto].
  - right. split; reflexivity.
Qed.

(** C4 as claimed fails: a gray button whose identifier was set to the empty
    string has an identifier set, yet its style can be set to URL. *)
Lemma set_style_accepts_link_over_empty_identifier :
  (b ← __init__ 7 (VStr "Go") (VInt 2) VNone VNone (VBool false) VNone;
   set_id b (VStr "")) = Ok empty_id_button /\
  claimed_set_style_rejects empty_id_button ButtonStyle.URL = true /\
  set_style empty_id_button (VInt ButtonStyle.URL) =
    Ok {| _style := VInt 5; _label := VStr "Go"; _id := VStr "";
          _url := VNone; _disabled := VBool false; _emoji := None |}.
Proof. repeat split. Qed.

(** Moving away from URL keeps the url and leaves the identifier [None]. *)
Example set_style_away_from_link :
  set_style visit_button (VInt ButtonStyle.gray) =
    Ok {| _style := VInt 2; _label := VStr "Visit"; _id := VNone;
          _url := VStr "https://example.com"; _disabled := VBool false;
          _emoji := None |}.
Proof. reflexivity. Qed.

(** A style that is no number cannot be ordered against 1. *)
Lemma set_style_not_a_number (b : Button) (v : value) :
  as_number v = None -> set_style b v = Raise TypeError.
Proof.
  intros H. unfold set_style, eq_int, between. rewrite H. reflexivity.
Qed.

(** ** The constructor *)

(** The constructor, as the code has it, on an integer style. *)
Lemma init_int (u : N) (label : value) (style : Z)
    (id url disabled emoji : value) :
  init_rejects label style id url emoji =
    raises_InvalidArgument
      (__init__ u label (VInt style) id url disabled emoji) /\
  init_rejects label style id url emoji =
    negb (succeeds (__init__ u label (VInt style) id url disabled emoji)).
Proof.
  unfold __init__, init_rejects, outside_1_5, between, eq_int,
    empty_or_absent, non_empty. simpl.
  unfold ButtonStyle.URL.
  destruct (style =? 5), (truthy url), (truthy id), (truthy label),
    (truthy emoji), ((1 <=? style) && (style <=? 5)); split; reflexivity.
Qed.

Lemma init_not_a_number (u : N) (label style id url disabled emoji : value) :
  as_number style = None ->
  __init__ u label style id url disabled emoji = Raise TypeError.
Proof.
  intros H. unfold __init__, eq_int, between. rewrite H. reflexivity.
Qed.

(** C3, as the code has it: with an integer style, construction raises
    [InvalidArgument] exactly when style is URL and url is empty or absent,
    or style is URL and a non-empty identifier is supplied, or style is
    outside [1,5], or both label and emoji are empty or absent; otherwise it
    returns a Button. *)
Theorem init_raises_iff (u : N) (label : value) (style : Z)
    (id url disabled emoji : value) :
  (init_rejects label style id url emoji = true /\
   exists msg, __init__ u label (VInt style) id url disabled emoji
               = Raise (InvalidArgument msg)) \/
  (init_rejects label style id url emoji = false /\
   exists b, __init__ u label (VInt style) id url disabled emoji = Ok b).
Proof.
  destruct (init_int u label style id url disabled emoji) as [Hr Hs].
  destruct (init_rejects label style id url emoji).
  - left. split; [reflexivity|].
    destruct (__init__ _ _ _ _ _ _ _) as [b|[msg|k|]]; try discriminate.
    eauto.
  - right. split; [reflexivity|].
    destruct (__init__ _ _ _ _ _ _ _) as [b|e]; try discriminate. eauto.
Qed.

(** C3 as claimed fails: an empty string supplied as the identifier of a
    URL button is not refused. *)
Lemma init_accepts_link_with_empty_identifier :
  claimed_init_rejects (VStr "Visit") ButtonStyle.URL (VStr "")
    (VStr "https://example.com") VNone = true /\
  __init__ 7 (VStr "Visit") (VInt ButtonStyle.URL) (VStr "")
    (VStr "https://example.com") (VBool false) VNone = Ok visit_button.
Proof. split; reflexivity. Qed.

(** What a successful construction returns, and what it has checked. *)
Lemma init_Ok (u : N) (label style id url disabled emoji : value)
    (b : Button) :
  __init__ u label style id url disabled emoji = Ok b ->
  b = {| _style := style; _label := label;
         _id := if eq_int style ButtonStyle.URL then VNone
                else py_or id (VStr (str_uuid u));
         _url := url; _disabled := disabled;
         _emoji := emoji_of_arg emoji |} /\
  (eq_int style ButtonStyle.URL = true ->
   truthy url = true /\ truthy id = false) /\
  between 1 style ButtonStyle.URL = Ok true /\
  (truthy label = true \/ truthy emoji = true).
Proof.
  unfold __init__.
  destruct (eq_int style ButtonStyle.URL) eqn:El, (truthy url) eqn:Eu,
    (truthy id) eqn:Ei; simpl; try discriminate;
    (destruct (between 1 style ButtonStyle.URL) as [[|]|e]; simpl;
     try discriminate);
    destruct (truthy label) eqn:Ela, (truthy emoji) eqn:Ee; simpl;
    try discriminate; intros [= <-]; repeat split; auto; discriminate.
Qed.

(** The converse of [init_Ok]: the checks that let a construction through. *)
Lemma init_accepts (u : N) (label style id url disabled emoji : value) :
  (eq_int style ButtonStyle.URL = true ->
   truthy url = true /\ truthy id = false) ->
  between 1 style ButtonStyle.URL = Ok true ->
  (truthy label = true \/ truthy emoji = true) ->
  __init__ u label style id url disabled emoji =
  Ok {| _style := style; _label := label;
        _id := if eq_int style ButtonStyle.URL then VNone
               else py_or id (VStr (str_uuid u));
        _url := url; _disabled := disabled;
        _emoji := emoji_of_arg emoji |}.
Proof.
  intros Hl Hr Hv. unfold __init__. rewrite Hr.
  destruct (eq_int style ButtonStyle.URL); simpl.
  - destruct (Hl eq_refl) as [-> ->]. simpl.
    destruct Hv as [-> | ->]; simpl; rewrite ?andb_false_r; reflexivity.
  - destruct Hv as [-> | ->]; simpl; rewrite ?andb_false_r; reflexivity.
Qed.

(** Without an identifier argument a button that is not a URL button gets
    the printed UUID, which is not empty. *)
Lemma init_generates_identifier (u : N)
    (label style url disabled emoji : value) (b : Button) :
  __init__ u label style VNone url disabled emoji = Ok b ->
  eq_int style ButtonStyle.URL = false ->
  _id b = VStr (str_uuid u) /\ str_uuid u <> "".
Proof.
  intros H El. apply init_Ok in H as (-> & _). simpl. rewrite El.
  split; [reflexivity | apply str_uuid_nonempty].
Qed.

(** A URL button is built with the identifier [None]. *)
Lemma init_link_identifier (u : N)
    (label style id url disabled emoji : value) (b : Button) :
  __init__ u label style id url disabled emoji = Ok b ->
  eq_int style ButtonStyle.URL = true ->
  _id b = VNone /\ truthy (_url b) = true.
Proof.
  intros H El. apply init_Ok in H as (-> & Hl & _). simpl. rewrite El.
  split; [reflexivity | apply Hl, El].
Qed.

(** A successful construction stores the url argument as it is, whatever
    the style. *)
Lemma init_stores_url (u : N)
    (label style id url disabled emoji : value) (b : Button) :
  __init__ u label style id url disabled emoji = Ok b -> _url b = url.
Proof. intros (-> & _)%init_Ok. reflexivity. Qed.

(** C6 at the failing input: constructing a gray button with a url succeeds
    and stores that url, although the style is not URL; the identifier is
    the printed UUID. *)
Theorem init_keeps_url_of_gray_button (u : N) :
  __init__ u (VStr "Go") (VInt ButtonStyle.gray) VNone
    (VStr "https://example.com") (VBool false) VNone =
  Ok {| _style := VInt 2; _label := VStr "Go"; _id := VStr (str_uuid u);
        _url := VStr "https://example.com"; _disabled := VBool false;
        _emoji := None |} /\
  is_Link {| _style := VInt 2; _label := VStr "Go";
             _id := VStr (str_uuid u); _url := VStr "https://example.com";
             _disabled := VBool false; _emoji := None |} = false /\
  absent (VStr "https://example.com") = false.
Proof.
  split; [|split; reflexivity].
  rewrite init_accepts; [reflexivity | discriminate | reflexivity |].
  left. reflexivity.
Qed.

(** The url setter, for its part, refuses the same url on a gray button. *)
Example set_url_on_gray_button :
  set_url go_button (VStr "https://example.com") =
  Raise (InvalidArgument
           "Button style is not URL. You shouldn't provide URL.").
Proof. reflexivity. Qed.

(** C9: when a button whose style is not URL is constructed, an identifier
    argument that is false (the empty string, [None], ...) is replaced by
    the printed UUID, and one that is true is kept; the stored identifier is
    the argument only in the second case. *)
Theorem init_identifier (u : N)
    (label style id url disabled emoji : value) (b : Button) :
  __init__ u label style id url disabled emoji = Ok b ->
  eq_int style ButtonStyle.URL = false ->
  (truthy id = false -> _id b = VStr (str_uuid u)) /\
  (truthy id = true -> _id b = id) /\
  (_id b = id -> truthy id = true).
Proof.
  intros H El. apply init_Ok in H as (-> & _). simpl. rewrite El.
  unfold py_or. destruct (truthy id) eqn:Ei; repeat split; auto;
    try discriminate.
  intros <-. rewrite truthy_str_uuid in Ei. discriminate.
Qed.

Lemma init_identifier_witness :
  __init__ 7 (VStr "Go") (VInt 2) (VStr "") VNone (VBool false) VNone =
    Ok {| _style := VInt 2; _label := VStr "Go";
          _id := VStr "00000000-0000-0000-0000-000000000007"; _url := VNone;
          _disabled := VBool false; _emoji := None |} /\
  _id {| _style := VInt 2; _label := VStr "Go";
         _id := VStr "00000000-0000-0000-0000-000000000007"; _url := VNone;
         _disabled := VBool false; _emoji := None |} = VStr (str_uuid 7).
Proof.
  split; [reflexivity|].
  exact (proj1 (init_identifier 7 (VStr "Go") (VInt 2) (VStr "") VNone
                  (VBool false) VNone _ eq_refl eq_refl) eq_refl).
Defined.

Example init_keeps_identifier :
  __init__ 7 (VStr "Go") (VInt 2) (VStr "go-1") VNone (VBool false) VNone
  = Ok go_button.
Proof. reflexivity. Qed.

(** ** Deserialization *)

(** C10: [from_json] on a dictionary without ["style"] raises
    [KeyError('style')], which is not [InvalidArgument]; each of the keys
    ["label"], ["custom_id"], ["url"], ["disabled"] and ["emoji"], when
    absent, reads as [None], [None], [None], [False] and no emoji: the
    result is that of the dictionary with the default entered under the
    key, and a dictionary with ["style"] alone is constructed from the
    defaults. *)
Theorem from_json_keys (u : N) (data : dict) :
  (data !! "style" = None ->
   from_json u data = Raise (KeyError "style") /\
   raises_InvalidArgument (from_json u data) = false) /\
  (data !! "label" = None ->
   from_json u data = from_json u (<["label" := VNone]> data)) /\
  (data !! "custom_id" = None ->
   from_json u data = from_json u (<["custom_id" := VNone]> data)) /\
  (data !! "url" = None ->
   from_json u data = from_json u (<["url" := VNone]> data)) /\
  (data !! "disabled" = None ->
   from_json u data = from_json u (<["disabled" := VBool false]> data)) /\
  (data !! "emoji" = None ->
   from_json u data = from_json u (<["emoji" := VNone]> data) /\
   forall b, from_json u data = Ok b -> _emoji b = None) /\
  (forall style,
     from_json u {[ "style" := style ]} =
     __init__ u VNone style VNone VNone (VBool false) VNone).
Proof.
  unfold from_json, get, getitem.
  repeat match goal with |- _ /\ _ => split end.
  - intros ->. split; reflexivity.
  - intros H. rewrite lookup_insert_eq, !lookup_insert_ne, H by done.
    reflexivity.
  - intros H. rewrite lookup_insert_eq, !lookup_insert_ne, H by done.
    reflexivity.
  - intros H. rewrite lookup_insert_eq, !lookup_insert_ne, H by done.
    reflexivity.
  - intros H. rewrite lookup_insert_eq, !lookup_insert_ne, H by done.
    reflexivity.
  - intros H. rewrite lookup_insert_eq, !lookup_insert_ne, H by done.
    split; [reflexivity|]. intros b.
    destruct (data !! "style") as [style|]; simpl; [|discriminate].
    intros Hb. apply init_Ok in Hb as (-> & _). reflexivity.
  - intros style. reflexivity.
Qed.

Lemma from_json_keys_witness :
  from_json 7 {[ "label" := VStr "Go" ]} = Raise (KeyError "style") /\
  from_json 7 {[ "style" := VInt 2; "label" := VStr "Go" ]} =
  from_json 7 (<["disabled" := VBool false]>
                 {[ "style" := VInt 2; "label" := VStr "Go" ]}).
Proof.
  split.
  - exact (proj1 (proj1 (from_json_keys 7 {[ "label" := VStr "Go" ]})
                    eq_refl)).
  - exact (proj1 (proj2 (proj2 (proj2 (proj2
             (from_json_keys 7
                {[ "style" := VInt 2; "label" := VStr "Go" ]})))))
             eq_refl).
Defined.

(** A wire emoji that is true but no dictionary cannot be subscripted, and a
    dictionary without ["name"] has no such key. *)
Example from_json_emoji_str :
  from_json 7 {[ "style" := VInt 2; "emoji" := VStr "smile" ]}
  = Raise TypeError.
Proof. reflexivity. Qed.

Example from_json_emoji_without_name :
  from_json 7 {[ "style" := VInt 2; "emoji" := VDict {[ "id" := VInt 1 ]} ]}
  = Raise (KeyError "name").
Proof. reflexivity. Qed.

(** Inconsistent wire data is refused by the constructor. *)
Example from_json_link_without_url :
  from_json 7 {[ "style" := VInt 5; "label" := VStr "Visit" ]}
  = Raise (InvalidArgument
             "You must provide a URL when the style is set to URL.").
Proof. reflexivity. Qed.

(** ** Round trip *)

Lemma to_dict_style (b : Button) : to_dict b !! "style" = Some (_style b).
Proof. unfold to_dict. destruct (emoji b); reflexivity. Qed.

Lemma to_dict_label (b : Button) : to_dict b !! "label" = Some (_label b).
Proof. unfold to_dict. destruct (emoji b); reflexivity. Qed.

Lemma to_dict_custom_id (b : Button) :
  to_dict b !! "custom_id" = Some (_id b).
Proof. unfold to_dict. destruct (emoji b); reflexivity. Qed.

Lemma to_dict_disabled (b : Button) :
  to_dict b !! "disabled" = Some (_disabled b).
Proof. unfold to_dict. destruct (emoji b); reflexivity. Qed.

Lemma to_dict_emoji (b : Button) :
  to_dict b !! "emoji" = (fun p => VDict (PartialEmoji_to_dict p)) <$> _emoji b.
Proof. unfold to_dict, emoji. destruct (_emoji b); reflexivity. Qed.

(** The emoji read back from the dictionary of [p]: an [animated] or [id]
    that is false was not written, and reads as the default. *)
Lemma emoji_of_wire_to_dict (p : PartialEmoji) :
  emoji_of_wire (VDict (PartialEmoji_to_dict p)) =
  Ok (VPartialEmoji
        (EmojiAttrs.mk (EmojiAttrs.name p)
           (if truthy (EmojiAttrs.animated p) then EmojiAttrs.animated p
            else VBool false)
           (if truthy (EmojiAttrs.id p) then EmojiAttrs.id p else VNone))).
Proof.
  unfold emoji_of_wire, PartialEmoji_to_dict.
  destruct (truthy (EmojiAttrs.id p)), (truthy (EmojiAttrs.animated p));
    reflexivity.
Qed.

(** What [from_json] hands to the constructor on a serialized button. *)
Lemma from_json_to_dict_init (u : N) (b : Button) :
  from_json u (to_dict b) =
  __init__ u (_label b) (_style b) (_id b)
    (if eq_int (_style b) ButtonStyle.URL then _url b else VNone)
    (_disabled b)
    match _emoji b with
    | Some p =>
        VPartialEmoji
          (EmojiAttrs.mk (EmojiAttrs.name p)
             (if truthy (EmojiAttrs.animated p) then EmojiAttrs.animated p
              else VBool false)
             (if truthy (EmojiAttrs.id p) then EmojiAttrs.id p else VNone))
    | None => VNone
    end.
Proof.
  unfold from_json, get, getitem.
  rewrite to_dict_style, to_dict_label, to_dict_custom_id, to_dict_url,
    to_dict_disabled, to_dict_emoji.
  destruct (_emoji b) as [p|]; simpl; [|reflexivity].
  rewrite emoji_of_wire_to_dict. reflexivity.
Qed.

Lemma absent_spec (v : value) : absent v = true <-> v = VNone.
Proof. destruct v; simpl; split; congruence. Qed.

(** The four invariants as propositions. *)
Lemma invariants_spec (b : Button) :
  invariants b = true <->
  (is_Link b = true -> truthy (_url b) = true /\ _id b = VNone) /\
  (is_Link b = false -> _id b <> VNone /\ _url b = VNone) /\
  (truthy (_label b) = true \/ is_Some (_emoji b)) /\
  between 1 (_style b) ButtonStyle.URL = Ok true.
Proof.
  unfold invariants, inv_link, inv_interactive, inv_visible, inv_style,
    present, non_empty, between, ButtonStyle.URL.
  rewrite !andb_true_iff, orb_true_iff, bool_decide_eq_true.
  destruct (is_Link b); simpl;
    rewrite ?andb_true_iff, ?negb_true_iff, ?absent_spec,
      <- ?not_true_iff_false, ?absent_spec;
    destruct (as_number (_style b)) as [n|];
    intuition (try congruence).
Qed.

(** C2, as the code has it: a button that satisfies the four invariants,
    whose identifier is non-empty when its style is not URL, and whose emoji
    has a boolean [animated] and an [id] that is absent or non-empty, is
    read back from its dictionary with all six slots unchanged. *)
Theorem from_json_to_dict (u : N) (b : Button) :
  invariants b = true ->
  (is_Link b || non_empty (_id b)) = true ->
  emoji_typed (_emoji b) = true ->
  from_json u (to_dict b) = Ok b.
Proof.
  intros (Hlink & Hint & Hvis & Hrange)%invariants_spec Hid Hem.
  rewrite from_json_to_dict_init.
  unfold is_Link, non_empty in *.
  destruct b as [st lb i ur di em]; simpl in *.
  rewrite init_accepts; [f_equal; f_equal | | exact Hrange | ].
  - (* the identifier *)
    destruct (eq_int st ButtonStyle.URL); simpl in *.
    + symmetry. apply Hlink. reflexivity.
    + unfold py_or. rewrite Hid. reflexivity.
  - (* the url *)
    destruct (eq_int st ButtonStyle.URL); [reflexivity|].
    symmetry. apply Hint. reflexivity.
  - (* the emoji *)
    destruct em as [[nm an ei]|]; simpl in *; [|reflexivity].
    apply andb_true_iff in Hem as [Han Hei]. unfold non_empty in Hei.
    destruct an as [| [|] | | | | |]; try discriminate; simpl;
      (destruct (truthy ei) eqn:Et; [reflexivity|]);
      rewrite orb_false_r in Hei; apply absent_spec in Hei; subst ei;
      reflexivity.
  - intros El. rewrite El in *. destruct (Hlink eq_refl) as [Hu ->].
    split; [exact Hu | reflexivity].
  - destruct Hvis as [Hlb | [p ->]]; [left; exact Hlb | right; reflexivity].
Qed.

Lemma from_json_to_dict_witness :
  from_json 7 (to_dict go_button) = Ok go_button /\
  from_json 7 (to_dict visit_button) = Ok visit_button.
Proof.
  split.
  - exact (from_json_to_dict 7 go_button eq_refl eq_refl eq_refl).
  - exact (from_json_to_dict 7 visit_button eq_refl eq_refl eq_refl).
Defined.

(** C2 as claimed fails: the gray button whose identifier was set to the
    empty string satisfies the four invariants, and is read back with a
    generated identifier. *)
Lemma from_json_to_dict_replaces_empty_identifier :
  (b ← __init__ 7 (VStr "Go") (VInt 2) VNone VNone (VBool false) VNone;
   set_id b (VStr "")) = Ok empty_id_button /\
  invariants empty_id_button = true /\
  from_json 7 (to_dict empty_id_button) =
    Ok {| _style := VInt 2; _label := VStr "Go";
          _id := VStr "00000000-0000-0000-0000-000000000007";
          _url := VNone; _disabled := VBool false; _emoji := None |}.
Proof. repeat split. Qed.

(** An emoji whose id is false but not [None] is read back with the id
    [None]. *)
Example from_json_to_dict_drops_empty_emoji_id :
  from_json 7
    (to_dict {| _style := VInt 2; _label := VStr "Go"; _id := VStr "go-1";
                _url := VNone; _disabled := VBool false;
                _emoji := Some (EmojiAttrs.mk (VStr "smile") (VBool false)
                                  (VStr "")) |}) =
  Ok {| _style := VInt 2; _label := VStr "Go"; _id := VStr "go-1";
        _url := VNone; _disabled := VBool false; _emoji := Some smile |}.
Proof. reflexivity. Qed.

(** ** Invariants *)

Lemma design_invariants_spec (b : Button) :
  design_invariants b = true <->
  between 1 (_style b) ButtonStyle.URL = Ok true /\
  (truthy (_label b) = true \/ is_Some (_emoji b)) /\
  (is_Link b = true -> truthy (_id b) = false).
Proof.
  unfold design_invariants, inv_link_identifier, inv_visible, inv_style, empty_or_absent,
    non_empty, between, ButtonStyle.URL.
  rewrite !andb_true_iff, orb_true_iff, bool_decide_eq_true.
  destruct (is_Link b); simpl; rewrite ?negb_true_iff;
    destruct (as_number (_style b)) as [n|];
    intuition (try congruence).
Qed.

(** A supported emoji argument that is true is stored. *)
Lemma emoji_of_arg_supported (emoji : value) :
  emoji_supported emoji = true -> truthy emoji = true ->
  is_Some (emoji_of_arg emoji).
Proof. destruct emoji; simpl; try discriminate; eauto. Qed.

Lemma init_design_invariants (u : N)
    (label style id url disabled emoji : value) (b : Button) :
  emoji_supported emoji = true ->
  __init__ u label style id url disabled emoji = Ok b ->
  design_invariants b = true.
Proof.
  intros Hs (-> & Hl & Hr & Hv)%init_Ok.
  apply design_invariants_spec. unfold is_Link. simpl.
  split; [exact Hr | split].
  - destruct Hv as [Hv | Hv]; [left; exact Hv | right].
    now apply emoji_of_arg_supported.
  - intros ->. reflexivity.
Qed.

Lemma apply_op_design_invariants (b b' : Button) (o : op) :
  design_invariants b = true -> apply_op b o = Ok b' ->
  design_invariants b' = true.
Proof.
  rewrite !design_invariants_spec. unfold is_Link.
  intros (Hr & Hv & Hl) H. destruct o as [v|v|v|v|v|v]; simpl in H.
  - (* style *)
    unfold set_style, id in H.
    destruct (eq_int v ButtonStyle.URL) eqn:El,
      (truthy (_id b)) eqn:Ei; simpl in H; try discriminate;
      (destruct (between 1 v ButtonStyle.URL) as [[|]|e] eqn:Eb;
       simpl in H; try discriminate);
      injection H as <-; simpl; rewrite ?El;
      (split; [|split]; auto; congruence).
  - (* label *)
    unfold set_label, emoji in H.
    destruct (truthy v) eqn:Et; simpl in H.
    + injection H as <-. simpl. auto.
    + destruct (bool_decide (is_Some (_emoji b))) eqn:Ee; simpl in H;
        [|discriminate].
      apply bool_decide_eq_true in Ee. injection H as <-. simpl. auto.
  - (* url *)
    unfold set_url in H.
    destruct (truthy v && negb (eq_int (style b) ButtonStyle.URL));
      [discriminate|]. injection H as <-. simpl. auto.
  - (* id *)
    unfold set_id, style in H.
    destruct (eq_int (_style b) ButtonStyle.URL) eqn:El; [discriminate|].
    injection H as <-. simpl. rewrite El.
    split; [|split]; auto; discriminate.
  - (* disabled *)
    unfold set_disabled in H. injection H as <-. simpl. auto.
  - (* emoji *)
    unfold set_emoji in H.
    destruct v; injection H as <-; simpl; eauto.
Qed.

Lemma run_design_invariants (ops : list op) (b b' : Button) :
  design_invariants b = true -> run b ops = Ok b' ->
  design_invariants b' = true.
Proof.
  revert b. induction ops as [|o ops IH]; intros b Hb H; simpl in H.
  - injection H as <-. exact Hb.
  - destruct (apply_op b o) as [b1|e] eqn:E1; simpl in H; [|discriminate].
    apply (IH b1); [|exact H].
    exact (apply_op_design_invariants b b1 o Hb E1).
Qed.

(** C1, as the code has it: after a successful construction whose emoji
    argument is [None], an [Emoji], a [PartialEmoji] or a string, and after
    every sequence of setter calls that all succeed, the style is in [1,5],
    the label is non-empty or an emoji is present, and a URL button has no
    non-empty identifier. *)
Theorem design_invariants_hold (u : N)
    (label style id url disabled emoji : value)
    (ops : list op) (b0 b : Button) :
  emoji_supported emoji = true ->
  __init__ u label style id url disabled emoji = Ok b0 ->
  run b0 ops = Ok b ->
  design_invariants b = true.
Proof.
  intros Hs H0 Hrun.
  apply (run_design_invariants ops b0 b); [|exact Hrun].
  exact (init_design_invariants u label style id url disabled emoji b0 Hs H0).
Qed.

Lemma design_invariants_hold_witness :
  design_invariants
    {| _style := VInt 5; _label := VStr "Go"; _id := VNone;
       _url := VStr "https://example.com"; _disabled := VBool true;
       _emoji := Some smile |} = true.
Proof.
  exact (design_invariants_hold 7 (VStr "Go") (VInt 2) VNone VNone
           (VBool false) VNone
           [SetEmoji (VStr "smile"); SetId VNone; SetStyle (VInt 5);
            SetUrl (VStr "https://example.com"); SetDisabled (VBool true)]
           _ _ eq_refl eq_refl eq_refl).
Defined.

(** C1 as claimed fails: a URL button whose style is set to gray keeps its
    url and has no identifier, against invariant 2. *)
Lemma invariants_broken_by_set_style :
  (b ← __init__ 7 (VStr "Visit") (VInt 5) VNone (VStr "https://example.com")
         (VBool false) VNone;
   run b [SetStyle (VInt 2)]) =
    Ok {| _style := VInt 2; _label := VStr "Visit"; _id := VNone;
          _url := VStr "https://example.com"; _disabled := VBool false;
          _emoji := None |} /\
  present (_id {| _style := VInt 2; _label := VStr "Visit"; _id := VNone;
                  _url := VStr "https://example.com";
                  _disabled := VBool false; _emoji := None |}) = false /\
  invariants {| _style := VInt 2; _label := VStr "Visit"; _id := VNone;
                _url := VStr "https://example.com";
                _disabled := VBool false; _emoji := None |} = false.
Proof. split; [|split]; reflexivity. Qed.

(** The other ways out of invariants 1 and 2: the identifier setter stores
    [None] on a gray button, and the url setter clears the url of a URL
    button. *)
Example invariants_broken_by_set_id :
  run go_button [SetId VNone] =
    Ok {| _style := VInt 2; _label := VStr "Go"; _id := VNone;
          _url := VNone; _disabled := VBool false; _emoji := None |} /\
  invariants go_button = true /\
  invariants {| _style := VInt 2; _label := VStr "Go"; _id := VNone;
                _url := VNone; _disabled := VBool false; _emoji := None |}
  = false.
Proof. split; [|split]; reflexivity. Qed.

Example invariants_broken_by_set_url :
  run visit_button [SetUrl (VStr "")] =
    Ok {| _style := VInt 5; _label := VStr "Visit"; _id := VNone;
          _url := VStr ""; _disabled := VBool false; _emoji := None |} /\
  invariants visit_button = true /\
  invariants {| _style := VInt 5; _label := VStr "Visit"; _id := VNone;
                _url := VStr ""; _disabled := VBool false; _emoji := None |}
  = false.
Proof. split; [|split]; reflexivity. Qed.

(** An emoji argument of an unsupported type passes the label-or-emoji
    check and is then dropped. *)
Example init_drops_unsupported_emoji :
  __init__ 7 VNone (VInt 2) (VStr "go-1") VNone (VBool false) (VInt 42) =
    Ok {| _style := VInt 2; _label := VNone; _id := VStr "go-1";
          _url := VNone; _disabled := VBool false; _emoji := None |}.
Proof. reflexivity. Qed.

(** * Further properties of the code *)

(** ** ButtonStyle.to_dict *)

Lemma ButtonStyle_to_dict_lookup (name : string) (code : Z) :
  ButtonStyle.to_dict !! name = Some code <->
  (name = "blue" /\ code = 1) \/ (name = "gray" /\ code = 2) \/
  (name = "green" /\ code = 3) \/ (name = "red" /\ code = 4) \/
  (name = "URL" /\ code = 5).
Proof.
  unfold ButtonStyle.to_dict, ButtonStyle.blue, ButtonStyle.gray,
    ButtonStyle.green, ButtonStyle.red, ButtonStyle.URL.
  split.
  - rewrite !lookup_insert_Some, lookup_singleton_Some.
    intros H. decompose [and or] H; subst; auto 10.
  - intros H. decompose [and or] H; subst; reflexivity.
Qed.

(** X1: every code that [ButtonStyle.to_dict] exports passes the range check
    of the constructor and of the style setter, no two names share a code
    (the alias ["grey"] is not exported), and [randomColor] always returns
    the code of an exported name other than ["URL"]. *)
Theorem ButtonStyle_to_dict_codes :
  (forall name code,
     ButtonStyle.to_dict !! name = Some code ->
     between 1 (VInt code) ButtonStyle.URL = Ok true /\
     (forall name', ButtonStyle.to_dict !! name' = Some code -> name' = name))
  /\ ButtonStyle.to_dict !! "grey" = None
  /\ (forall r, exists name,
        name <> "URL" /\
        ButtonStyle.to_dict !! name = Some (ButtonStyle.randomColor r)).
Proof.
  split; [|split].
  - intros name code H. apply ButtonStyle_to_dict_lookup in H.
    split.
    + decompose [and or] H; subst; reflexivity.
    + intros name' H'. apply ButtonStyle_to_dict_lookup in H'.
      decompose [and or] H; decompose [and or] H'; subst; congruence.
  - reflexivity.
  - intros r. pose proof (randint_range 1 ButtonStyle.red r) as Hr.
    unfold ButtonStyle.randomColor, ButtonStyle.red in *.
    specialize (Hr ltac:(lia)).
    assert (Hc : randint 1 4 r = 1 \/ randint 1 4 r = 2 \/
                 randint 1 4 r = 3 \/ randint 1 4 r = 4) by lia.
    destruct Hc as [-> | [-> | [-> | ->]]];
      [exists "blue" | exists "gray" | exists "green" | exists "red"];
      split; (discriminate || reflexivity).
Qed.

Lemma ButtonStyle_to_dict_codes_witness :
  between 1 (VInt 5) ButtonStyle.URL = Ok true /\
  ButtonStyle.to_dict !! "green" = Some 3.
Proof.
  split; [|reflexivity].
  exact (proj1 (proj1 ButtonStyle_to_dict_codes "URL" 5 eq_refl)).
Defined.

(** ** The keys of Button.to_dict *)

Lemma PartialEmoji_to_dict_name (p : PartialEmoji) :
  PartialEmoji_to_dict p !! "name" = Some (EmojiAttrs.name p).
Proof.
  unfold PartialEmoji_to_dict.
  destruct (truthy (EmojiAttrs.id p)), (truthy (EmojiAttrs.animated p));
    reflexivity.
Qed.

(** X2: the dictionary of a button has the keys type, style, label,
    custom_id, url and disabled, and the key emoji exactly when an emoji is
    stored; type is 2, and the emoji entry is a dictionary that carries the
    emoji's name. *)
Theorem to_dict_keys (b : Button) :
  dom (to_dict b) =
    {[ "type"; "style"; "label"; "custom_id"; "url"; "disabled" ]}
    ∪ match _emoji b with Some _ => {[ "emoji" ]} | None => ∅ end /\
  to_dict b !! "type" = Some (VInt 2) /\
  (forall p, _emoji b = Some p ->
     exists d, to_dict b !! "emoji" = Some (VDict d) /\
               d !! "name" = Some (EmojiAttrs.name p)) /\
  (_emoji b = None -> to_dict b !! "emoji" = None).
Proof.
  unfold to_dict, emoji. destruct (_emoji b) as [p|].
  - split; [|split; [|split]].
    + rewrite !dom_insert_L, dom_singleton_L. set_solver.
    + reflexivity.
    + intros p' [= <-]. eexists. split; [reflexivity|].
      apply PartialEmoji_to_dict_name.
    + discriminate.
  - split; [|split; [|split]].
    + rewrite !dom_insert_L, dom_singleton_L. set_solver.
    + reflexivity.
    + discriminate.
    + reflexivity.
Qed.

Lemma to_dict_keys_witness :
  to_dict go_button !! "emoji" = None.
Proof.
  exact (proj2 (proj2 (proj2 (to_dict_keys go_button))) eq_refl).
Defined.

(** ** from_json and the wire dictionary *)

(** X3: [from_json] reads the six keys of [wire_keys] and nothing else: an
    entry under any other key, ["type"] included, does not change its
    result. *)
Theorem from_json_ignores_other_keys (u : N) (data : dict)
    (k : string) (v : value) :
  bool_decide (k ∈ wire_keys) = false ->
  from_json u (<[k := v]> data) = from_json u data.
Proof.
  intros Hk. apply bool_decide_eq_false in Hk. unfold wire_keys in Hk.
  rewrite !not_elem_of_cons in Hk.
  destruct Hk as (H1 & H2 & H3 & H4 & H5 & H6 & _).
  unfold from_json, get, getitem.
  rewrite !lookup_insert_ne by congruence. reflexivity.
Qed.

Lemma from_json_ignores_other_keys_witness :
  from_json 7 (<["type" := VInt 3]> (to_dict go_button)) =
  from_json 7 (to_dict go_button).
Proof.
  exact (from_json_ignores_other_keys 7 (to_dict go_button) "type" (VInt 3)
           eq_refl).
Defined.

(** X4: a wire emoji that is false ([None], an empty dictionary, an empty
    string, 0, [False]) is read as no emoji: the result is that of the
    dictionary without the key. *)
Theorem from_json_false_emoji (u : N) (data : dict) (e : value) :
  data !! "emoji" = Some e -> truthy e = false ->
  from_json u data = from_json u (delete "emoji" data).
Proof.
  intros He Hf. unfold from_json, get, getitem, emoji_of_wire.
  rewrite lookup_delete_eq, !lookup_delete_ne, He, Hf by done.
  reflexivity.
Qed.

Lemma from_json_false_emoji_witness :
  from_json 7 {[ "style" := VInt 2; "label" := VStr "Go";
                 "emoji" := VDict ∅ ]} =
  from_json 7 (delete "emoji"
                 ({[ "style" := VInt 2; "label" := VStr "Go";
                     "emoji" := VDict ∅ ]} : dict)).
Proof.
  exact (from_json_false_emoji 7
           {[ "style" := VInt 2; "label" := VStr "Go"; "emoji" := VDict ∅ ]}
           (VDict ∅) eq_refl eq_refl).
Defined.

(** The exceptions of the constructor. *)
Lemma init_Raise (u : N) (label style id url disabled emoji : value)
    (e : exn) :
  __init__ u label style id url disabled emoji = Raise e ->
  (e = TypeError /\ as_number style = None) \/
  (exists msg, e = InvalidArgument msg /\ msg ∈ init_messages).
Proof.
  unfold __init__, between, eq_int, init_messages.
  destruct (as_number style) as [n|]; simpl.
  - destruct (n =? ButtonStyle.URL), (truthy url), (truthy id),
      ((1 <=? n) && (n <=? ButtonStyle.URL)), (truthy label), (truthy emoji);
      simpl; intros [= <-]; right; eexists; (split; [reflexivity|]);
      set_solver.
  - intros [= <-]. left. split; reflexivity.
Qed.

(** X5: the exceptions of [from_json].  [KeyError] is raised for ["style"]
    (the key is missing) or for ["name"] (the wire emoji is a dictionary
    without a name), never for another key; [TypeError] when the wire emoji
    is true but no dictionary, or the style is no number; every other
    failure is an [InvalidArgument] of the constructor. *)
Theorem from_json_exceptions (u : N) (data : dict) (e : exn) :
  from_json u data = Raise e ->
  (e = KeyError "style" /\ data !! "style" = None) \/
  (e = KeyError "name" /\
   exists d, data !! "emoji" = Some (VDict d) /\ d !! "name" = None) \/
  (e = TypeError /\
   ((exists v, data !! "emoji" = Some v /\ truthy v = true /\
               forall d, v <> VDict d) \/
    (exists s, data !! "style" = Some s /\ as_number s = None))) \/
  (exists msg, e = InvalidArgument msg /\ msg ∈ init_messages).
Proof.
  unfold from_json, get, getitem, emoji_of_wire.
  destruct (data !! "style") as [s|] eqn:Es; simpl;
    [|intros [= <-]; left; split; reflexivity].
  destruct (data !! "emoji") as [v|] eqn:Ee; simpl.
  - destruct (truthy v) eqn:Et; simpl.
    + destruct v as [| | | | | |d]; simpl;
        try (intros [= <-]; right; right; left; split; [reflexivity|]; left;
             eexists; split; [reflexivity|]; split; [exact Et|];
             intros d; discriminate).
      unfold getitem. destruct (d !! "name") as [n|] eqn:En; simpl.
      * intros H. apply init_Raise in H as [[-> Hs] | H].
        -- right; right; left. split; [reflexivity|]. right. eauto.
        -- right; right; right. exact H.
      * intros [= <-]. right; left. split; [reflexivity|]. eauto.
    + intros H. apply init_Raise in H as [[-> Hs] | H].
      * right; right; left. split; [reflexivity|]. right. eauto.
      * right; right; right. exact H.
  - intros H. apply init_Raise in H as [[-> Hs] | H].
    + right; right; left. split; [reflexivity|]. right. eauto.
    + right; right; right. exact H.
Qed.

Lemma from_json_exceptions_witness :
  let data : dict :=
    {[ "style" := VInt 2; "emoji" := VDict {[ "id" := VInt 1 ]} ]} in
  from_json 7 data = Raise (KeyError "name") /\
  ((KeyError "name" = KeyError "style" /\ data !! "style" = None) \/
   (KeyError "name" = KeyError "name" /\
    exists d, data !! "emoji" = Some (VDict d) /\ d !! "name" = None) \/
   (KeyError "name" = TypeError /\
    ((exists v, data !! "emoji" = Some v /\ truthy v = true /\
                forall d, v <> VDict d) \/
     (exists s, data !! "style" = Some s /\ as_number s = None))) \/
   (exists msg,
      KeyError "name" = InvalidArgument msg /\ msg ∈ init_messages)).
Proof.
  split; [reflexivity|].
  exact (from_json_exceptions 7
           {[ "style" := VInt 2; "emoji" := VDict {[ "id" := VInt 1 ]} ]}
           (KeyError "name") eq_refl).
Defined.

(** ** Reading a button back from its dictionary *)

Lemma emoji_read_back_idempotent (p : PartialEmoji) :
  emoji_read_back (emoji_read_back p) = emoji_read_back p.
Proof.
  unfold emoji_read_back. simpl.
  destruct (truthy (EmojiAttrs.animated p)) eqn:Ea,
    (truthy (EmojiAttrs.id p)) eqn:Ei; rewrite ?Ea, ?Ei; reflexivity.
Qed.

Lemma PartialEmoji_to_dict_read_back (p : PartialEmoji) :
  PartialEmoji_to_dict (emoji_read_back p) = PartialEmoji_to_dict p.
Proof.
  unfold PartialEmoji_to_dict, emoji_read_back. simpl.
  destruct (truthy (EmojiAttrs.animated p)) eqn:Ea,
    (truthy (EmojiAttrs.id p)) eqn:Ei; rewrite ?Ea, ?Ei; reflexivity.
Qed.

Lemma truthy_py_or_uuid (i : value) (u : N) :
  truthy (py_or i (VStr (str_uuid u))) = true.
Proof.
  unfold py_or. destruct (truthy i) eqn:Ei; [exact Ei|].
  apply truthy_str_uuid.
Qed.

(** The button that [from_json] returns on the dictionary of [b], when it
    returns one. *)
Lemma from_json_to_dict_Ok (u : N) (b b' : Button) :
  from_json u (to_dict b) = Ok b' ->
  b' = {| _style := _style b; _label := _label b;
          _id := if is_Link b then VNone
                 else py_or (_id b) (VStr (str_uuid u));
          _url := if is_Link b then _url b else VNone;
          _disabled := _disabled b;
          _emoji := emoji_read_back <$> _emoji b |} /\
  (is_Link b = true -> truthy (_url b) = true /\ truthy (_id b) = false) /\
  between 1 (_style b) ButtonStyle.URL = Ok true /\
  (truthy (_label b) = true \/ is_Some (_emoji b)).
Proof.
  rewrite from_json_to_dict_init. unfold is_Link.
  intros (-> & Hl & Hr & Hv)%init_Ok.
  split; [|split; [|split]].
  - destruct (_emoji b); reflexivity.
  - intros El. rewrite El in Hl. apply Hl. reflexivity.
  - exact Hr.
  - destruct Hv as [Hv|Hv]; [left; exact Hv|].
    destruct (_emoji b); [right; eauto | discriminate].
Qed.

(** X6: reading a button back from its dictionary is idempotent: the button
    that [from_json] returns on [to_dict b] is read back unchanged from its
    own dictionary, whatever UUID is drawn. *)
Theorem from_json_to_dict_idempotent (u u' : N) (b b' : Button) :
  from_json u (to_dict b) = Ok b' ->
  from_json u' (to_dict b') = Ok b'.
Proof.
  intros (-> & Hl & Hr & Hv)%from_json_to_dict_Ok.
  rewrite from_json_to_dict_init. simpl. unfold is_Link in *.
  rewrite init_accepts; simpl.
  - f_equal. f_equal.
    + destruct (eq_int (_style b) ButtonStyle.URL); [reflexivity|].
      unfold py_or at 1.
      rewrite truthy_py_or_uuid. reflexivity.
    + destruct (eq_int (_style b) ButtonStyle.URL); reflexivity.
    + destruct (_emoji b) as [p|]; simpl; [|reflexivity].
      f_equal. apply emoji_read_back_idempotent.
  - intros El. rewrite El in *. destruct (Hl eq_refl) as [Hu _].
    split; [exact Hu | reflexivity].
  - exact Hr.
  - destruct Hv as [Hv | [p Hp]]; [left; exact Hv | right].
    rewrite Hp. reflexivity.
Qed.

Lemma from_json_to_dict_idempotent_witness :
  from_json 9
    (to_dict {| _style := VInt 2; _label := VStr "Go";
                _id := VStr "00000000-0000-0000-0000-000000000007";
                _url := VNone; _disabled := VBool false; _emoji := None |}) =
  Ok {| _style := VInt 2; _label := VStr "Go";
        _id := VStr "00000000-0000-0000-0000-000000000007";
        _url := VNone; _disabled := VBool false; _emoji := None |}.
Proof.
  exact (from_json_to_dict_idempotent 7 9 empty_id_button _ eq_refl).
Defined.

(** The dictionary of the button read back differs from the one it was read
    from at most under ["custom_id"]. *)
Lemma to_dict_read_back (b : Button) (i : value) :
  to_dict {| _style := _style b; _label := _label b; _id := i;
             _url := if is_Link b then _url b else VNone;
             _disabled := _disabled b;
             _emoji := emoji_read_back <$> _emoji b |} =
  <["custom_id" := i]> (to_dict b).
Proof.
  unfold to_dict, emoji, style, label, id, url, disabled, is_Link. simpl.
  destruct (_emoji b) as [p|]; simpl;
    rewrite ?PartialEmoji_to_dict_read_back;
    destruct (eq_int (_style b) ButtonStyle.URL);
    apply map_eq; intros k;
    rewrite ?lookup_insert, ?lookup_singleton;
    repeat case_decide; subst; try reflexivity; try congruence.
Qed.

(** X7: when [from_json] accepts the dictionary of a button, the dictionary
    of the button it returns is the same except, at most, under
    ["custom_id"], where it holds the identifier of the new button. *)
Theorem to_dict_from_json_to_dict (u : N) (b b' : Button) :
  from_json u (to_dict b) = Ok b' ->
  to_dict b' = <["custom_id" := _id b']> (to_dict b).
Proof.
  intros (-> & _)%from_json_to_dict_Ok. simpl. apply to_dict_read_back.
Qed.

Lemma to_dict_from_json_to_dict_witness :
  to_dict {| _style := VInt 2; _label := VStr "Go";
             _id := VStr "00000000-0000-0000-0000-000000000007";
             _url := VNone; _disabled := VBool false; _emoji := None |} =
  <["custom_id" := VStr "00000000-0000-0000-0000-000000000007"]>
    (to_dict empty_id_button).
Proof.
  exact (to_dict_from_json_to_dict 7 empty_id_button _ eq_refl).
Defined.

(** X8: a button as the constructor returns it, for an emoji argument of a
    supported type, is always accepted back from its dictionary; the button
    read back has the same identifier and the same dictionary. *)
Theorem init_from_json_to_dict (u u' : N)
    (label style id url disabled emoji : value) (b : Button) :
  emoji_supported emoji = true ->
  __init__ u label style id url disabled emoji = Ok b ->
  exists b', from_json u' (to_dict b) = Ok b' /\
             _id b' = _id b /\ to_dict b' = to_dict b.
Proof.
  intros Hs (-> & Hl & Hr & Hv)%init_Ok.
  rewrite from_json_to_dict_init. simpl.
  rewrite init_accepts; simpl.
  - eexists. split; [reflexivity|]. simpl.
    assert (Hid : (if eq_int style ButtonStyle.URL then VNone
                   else py_or (if eq_int style ButtonStyle.URL then VNone
                               else py_or id (VStr (str_uuid u)))
                          (VStr (str_uuid u'))) =
                  (if eq_int style ButtonStyle.URL then VNone
                   else py_or id (VStr (str_uuid u)))).
    { destruct (eq_int style ButtonStyle.URL); [reflexivity|].
      unfold py_or at 1. rewrite truthy_py_or_uuid. reflexivity. }
    split; [exact Hid|]. rewrite Hid.
    set (b := {| _style := style; _label := label;
                 _id := if eq_int style ButtonStyle.URL then VNone
                        else py_or id (VStr (str_uuid u));
                 _url := url; _disabled := disabled;
                 _emoji := emoji_of_arg emoji |}).
    transitivity (<["custom_id" := _id b]> (to_dict b)).
    + rewrite <- to_dict_read_back. f_equal.
      unfold b. simpl. f_equal. destruct (emoji_of_arg emoji); reflexivity.
    + apply insert_id. apply to_dict_custom_id.
  - intros El. rewrite El. destruct (Hl El) as [Hu _].
    split; [exact Hu | reflexivity].
  - exact Hr.
  - destruct Hv as [Hv | Hv]; [left; exact Hv | right].
    destruct (emoji_of_arg_supported emoji Hs Hv) as [p ->]. reflexivity.
Qed.

Lemma init_from_json_to_dict_witness :
  exists b',
    from_json 9
      (to_dict {| _style := VInt 2; _label := VStr "Go";
                  _id := VStr "00000000-0000-0000-0000-000000000007";
                  _url := VStr "https://example.com";
                  _disabled := VBool false; _emoji := Some smile |}) = Ok b' /\
    _id b' = VStr "00000000-0000-0000-0000-000000000007" /\
    to_dict b' =
    to_dict {| _style := VInt 2; _label := VStr "Go";
               _id := VStr "00000000-0000-0000-0000-000000000007";
               _url := VStr "https://example.com";
               _disabled := VBool false; _emoji := Some smile |}.
Proof.
  exact (init_from_json_to_dict 7 9 (VStr "Go") (VInt 2) VNone
           (VStr "https://example.com") (VBool false) (VStr "smile") _
           eq_refl eq_refl).
Defined.

(** X9: the url setter always accepts a false value; on a URL button this
    leaves a button whose dictionary [from_json] refuses, for want of a
    url. *)
Theorem set_url_cleared_not_read_back (u : N) (b : Button) (v : value) :
  is_Link b = true -> truthy v = false ->
  exists b',
    set_url b v = Ok b' /\
    from_json u (to_dict b') =
    Raise (InvalidArgument
             "You must provide a URL when the style is set to URL.").
Proof.
  intros El Hv. unfold set_url. rewrite Hv. simpl.
  eexists. split; [reflexivity|].
  rewrite from_json_to_dict_init. simpl. unfold is_Link in El.
  unfold __init__. rewrite El, Hv. reflexivity.
Qed.

Lemma set_url_cleared_not_read_back_witness :
  exists b',
    set_url visit_button (VStr "") = Ok b' /\
    from_json 7 (to_dict b') =
    Raise (InvalidArgument
             "You must provide a URL when the style is set to URL.").
Proof.
  exact (set_url_cleared_not_read_back 7 visit_button (VStr "")
           eq_refl eq_refl).
Defined.

(** ** How the setters compose *)

(** X10: turning a button with an identifier into a URL button takes the
    three assignments in one order only: identifier cleared, then style,
    then url.  Every other order of the three raises. *)
Theorem link_conversion_order (b : Button) (u : value) :
  is_Link b = false -> truthy (_id b) = true -> truthy u = true ->
  run b [SetId VNone; SetStyle (VInt ButtonStyle.URL); SetUrl u] =
    Ok {| _style := VInt ButtonStyle.URL; _label := _label b; _id := VNone;
          _url := u; _disabled := _disabled b; _emoji := _emoji b |} /\
  succeeds (run b [SetId VNone; SetUrl u; SetStyle (VInt ButtonStyle.URL)])
    = false /\
  succeeds (run b [SetStyle (VInt ButtonStyle.URL); SetId VNone; SetUrl u])
    = false /\
  succeeds (run b [SetStyle (VInt ButtonStyle.URL); SetUrl u; SetId VNone])
    = false /\
  succeeds (run b [SetUrl u; SetId VNone; SetStyle (VInt ButtonStyle.URL)])
    = false /\
  succeeds (run b [SetUrl u; SetStyle (VInt ButtonStyle.URL); SetId VNone])
    = false.
Proof.
  unfold is_Link. intros El Hi Hu.
  assert (Hid : forall x, set_id b x =
            Ok {| _style := _style b; _label := _label b; _id := x;
                  _url := _url b; _disabled := _disabled b;
                  _emoji := _emoji b |})
    by (intros x; unfold set_id, style; rewrite El; reflexivity).
  assert (Hurl : set_url b u =
            Raise (InvalidArgument
                     "Button style is not URL. You shouldn't provide URL."))
    by (unfold set_url, style; rewrite El, Hu; reflexivity).
  assert (Hst : set_style b (VInt ButtonStyle.URL) =
            Raise (InvalidArgument "Both ID and URL are set."))
    by (unfold set_style, id; rewrite Hi; reflexivity).
  unfold run, apply_op. rewrite Hid, Hurl, Hst. simpl.
  unfold set_url, style. simpl. rewrite El, Hu. simpl.
  repeat split; reflexivity.
Qed.

Lemma link_conversion_order_witness :
  run go_button [SetId VNone; SetStyle (VInt 5);
                 SetUrl (VStr "https://example.com")] =
    Ok {| _style := VInt 5; _label := VStr "Go"; _id := VNone;
          _url := VStr "https://example.com"; _disabled := VBool false;
          _emoji := None |} /\
  succeeds (run go_button [SetStyle (VInt 5); SetId VNone;
                           SetUrl (VStr "https://example.com")]) = false.
Proof.
  pose proof (link_conversion_order go_button (VStr "https://example.com")
                eq_refl eq_refl eq_refl) as (H1 & _ & H3 & _).
  exact (conj H1 H3).
Defined.

(** X11: on a URL button the identifier setter refuses every value, [None]
    included; once the style is set to one of the colours 1..4 (which always
    succeeds) any identifier is accepted, and the url is still stored. *)
Theorem unlink_then_set_id (b : Button) (v : Z) (i : value) :
  is_Link b = true -> 1 <= v <= 4 ->
  (forall x, raises_InvalidArgument (set_id b x) = true) /\
  run b [SetStyle (VInt v); SetId i] =
    Ok {| _style := VInt v; _label := _label b; _id := i;
          _url := _url b; _disabled := _disabled b; _emoji := _emoji b |}.
Proof.
  unfold is_Link. intros El Hv. split.
  - intros x. unfold set_id, style. rewrite El. reflexivity.
  - simpl. unfold set_style, between, eq_int. simpl.
    unfold ButtonStyle.URL.
    replace (v =? 5) with false by lia.
    replace ((1 <=? v) && (v <=? 5)) with true by lia.
    simpl. unfold set_id, style, eq_int. simpl.
    unfold ButtonStyle.URL. replace (v =? 5) with false by lia.
    reflexivity.
Qed.

Lemma unlink_then_set_id_witness :
  raises_InvalidArgument (set_id visit_button VNone) = true /\
  run visit_button [SetStyle (VInt 3); SetId (VStr "go-1")] =
    Ok {| _style := VInt 3; _label := VStr "Visit"; _id := VStr "go-1";
          _url := VStr "https://example.com"; _disabled := VBool false;
          _emoji := None |}.
Proof.
  pose proof (unlink_then_set_id visit_button 3 (VStr "go-1") eq_refl
                ltac:(lia)) as [H1 H2].
  exact (conj (H1 VNone) H2).
Defined.

(** X12: on a button that satisfies the invariants the setters keep
    ([design_invariants], so on every button built by the constructor and
    the setters), assigning a slot the value it already holds succeeds and
    changes nothing for style, label and disabled; for the identifier it
    does so exactly on a button that is no URL button, and for the url
    exactly on a URL button or when the url is false. *)
Theorem reassign_current_value (b : Button) :
  design_invariants b = true ->
  set_style b (_style b) = Ok b /\
  set_label b (_label b) = Ok b /\
  set_disabled b (_disabled b) = Ok b /\
  succeeds (set_id b (_id b)) = negb (is_Link b) /\
  succeeds (set_url b (_url b)) = is_Link b || negb (truthy (_url b)) /\
  (forall b', set_id b (_id b) = Ok b' -> b' = b) /\
  (forall b', set_url b (_url b) = Ok b' -> b' = b).
Proof.
  intros (Hr & Hv & Hl)%design_invariants_spec.
  destruct b as [st lb i ur di em]. unfold is_Link in *. simpl in *.
  unfold set_style, set_label, set_disabled, set_id, set_url, style, id,
    emoji. simpl. rewrite Hr. simpl.
  repeat match goal with |- _ /\ _ => split end.
  - destruct (eq_int st ButtonStyle.URL); simpl; [|reflexivity].
    rewrite (Hl eq_refl). reflexivity.
  - destruct Hv as [-> | Hs]; [reflexivity|].
    rewrite (bool_decide_eq_true_2 _ Hs), andb_false_r. reflexivity.
  - reflexivity.
  - destruct (eq_int st ButtonStyle.URL); reflexivity.
  - destruct (eq_int st ButtonStyle.URL), (truthy ur); reflexivity.
  - intros b'. destruct (eq_int st ButtonStyle.URL); [discriminate|].
    intros [= <-]. reflexivity.
  - intros b'.
    destruct (truthy ur && negb (eq_int st ButtonStyle.URL));
      [discriminate|]. intros [= <-]. reflexivity.
Qed.

Lemma reassign_current_value_witness :
  set_style visit_button (VInt 5) = Ok visit_button /\
  succeeds (set_url stale_url_button (_url stale_url_button)) = false.
Proof.
  split.
  - exact (proj1 (reassign_current_value visit_button eq_refl)).
  - exact (proj1 (proj2 (proj2 (proj2 (proj2
             (reassign_current_value stale_url_button eq_refl)))))).
Defined.

(** ** What the setters never do *)

Lemma apply_op_keeps_emoji (b b' : Button) (o : op) :
  apply_op b o = Ok b' -> is_Some (_emoji b) -> is_Some (_emoji b').
Proof.
  intros H He. destruct o as [v|v|v|v|v|v]; simpl in H.
  - unfold set_style in H.
    destruct (eq_int v ButtonStyle.URL && truthy (id b)); [discriminate|].
    destruct (between 1 v ButtonStyle.URL) as [[|]|e]; simpl in H;
      try discriminate. injection H as <-. exact He.
  - unfold set_label in H.
    destruct (negb (truthy v) && negb (bool_decide (is_Some (emoji b))));
      [discriminate|]. injection H as <-. exact He.
  - unfold set_url in H.
    destruct (truthy v && negb (eq_int (style b) ButtonStyle.URL));
      [discriminate|]. injection H as <-. exact He.
  - unfold set_id in H.
    destruct (eq_int (style b) ButtonStyle.URL); [discriminate|].
    injection H as <-. exact He.
  - unfold set_disabled in H. injection H as <-. exact He.
  - unfold set_emoji in H.
    destruct v; injection H as <-; simpl; eauto.
Qed.

(** X13: no sequence of setter calls removes an emoji: once a button has
    one it keeps one (the emoji setter can replace it, never clear it), and
    so its label setter accepts every value, the empty string included. *)
Theorem emoji_never_removed (ops : list op) (b b' : Button) :
  is_Some (_emoji b) -> run b ops = Ok b' ->
  is_Some (_emoji b') /\
  forall v, set_label b' v =
            Ok {| _style := _style b'; _label := v; _id := _id b';
                  _url := _url b'; _disabled := _disabled b';
                  _emoji := _emoji b' |}.
Proof.
  intros He Hrun.
  assert (He' : is_Some (_emoji b')).
  { revert b He Hrun. induction ops as [|o ops IH]; intros b He Hrun;
      simpl in Hrun.
    - injection Hrun as <-. exact He.
    - destruct (apply_op b o) as [b1|e] eqn:E1; simpl in Hrun;
        [|discriminate].
      apply (IH b1); [|exact Hrun].
      exact (apply_op_keeps_emoji b b1 o E1 He). }
  split; [exact He'|]. intros v. unfold set_label, emoji.
  rewrite (bool_decide_eq_true_2 _ He'), andb_false_r. reflexivity.
Qed.

Lemma emoji_never_removed_witness :
  set_label
    {| _style := VInt 2; _label := VStr "Go"; _id := VStr "go-1";
       _url := VNone; _disabled := VBool true; _emoji := Some smile |}
    (VStr "") =
  Ok {| _style := VInt 2; _label := VStr ""; _id := VStr "go-1";
        _url := VNone; _disabled := VBool true; _emoji := Some smile |}.
Proof.
  exact (proj2 (emoji_never_removed
                  [SetEmoji VNone; SetEmoji (VInt 42);
                   SetDisabled (VBool true)]
                  {| _style := VInt 2; _label := VStr "Go";
                     _id := VStr "go-1"; _url := VNone;
                     _disabled := VBool false; _emoji := Some smile |} _
                  (ex_intro _ smile eq_refl) eq_refl) (VStr "")).
Defined.

Lemma apply_op_no_restyle (b b' : Button) (o : op) :
  match o with SetStyle _ => false | _ => true end = true ->
  apply_op b o = Ok b' ->
  _style b' = _style b /\
  (is_Link b = true -> _id b' = _id b) /\
  (is_Link b = false -> truthy (_url b) = false -> truthy (_url b') = false).
Proof.
  unfold is_Link. intros Ho H. destruct o as [v|v|v|v|v|v]; simpl in H.
  - discriminate.
  - unfold set_label in H.
    destruct (negb (truthy v) && negb (bool_decide (is_Some (emoji b))));
      [discriminate|]. injection H as <-. auto.
  - unfold set_url, style in H.
    destruct (truthy v) eqn:Ev,
      (eq_int (_style b) ButtonStyle.URL) eqn:El; simpl in H;
      try discriminate; injection H as <-; simpl; auto.
    repeat split; auto; discriminate.
  - unfold set_id, style in H.
    destruct (eq_int (_style b) ButtonStyle.URL) eqn:El; [discriminate|].
    injection H as <-. simpl. repeat split; auto; discriminate.
  - unfold set_disabled in H. injection H as <-. auto.
  - unfold set_emoji in H. destruct v; injection H as <-; auto.
Qed.

Lemma run_no_restyle (ops : list op) (b b' : Button) :
  restyles ops = false -> run b ops = Ok b' ->
  _style b' = _style b /\
  (is_Link b = true -> _id b' = _id b) /\
  (is_Link b = false -> truthy (_url b) = false -> truthy (_url b') = false).
Proof.
  revert b. induction ops as [|o ops IH]; intros b Hn Hrun; simpl in *.
  - injection Hrun as <-. auto.
  - apply orb_false_iff in Hn as [Ho Hn].
    destruct (apply_op b o) as [b1|e] eqn:E1; simpl in Hrun; [|discriminate].
    destruct (apply_op_no_restyle b b1 o) as (Hs1 & Hi1 & Hu1);
      [destruct o; (discriminate || reflexivity) | exact E1 |].
    destruct (IH b1 Hn Hrun) as (Hs & Hi & Hu).
    unfold is_Link in *. rewrite Hs1 in *.
    split; [congruence | split].
    + intros El. rewrite (Hi El). auto.
    + intros El Hf. auto.
Qed.

(** X14: as long as the style is never assigned, the button keeps what the
    constructor established: the style is the constructor's; a URL button
    has the identifier [None]; and a button that is no URL button and was
    constructed without a url never holds one. *)
Theorem never_restyled (u : N) (label style id url disabled emoji : value)
    (ops : list op) (b0 b : Button) :
  __init__ u label style id url disabled emoji = Ok b0 ->
  restyles ops = false ->
  run b0 ops = Ok b ->
  _style b = style /\
  (is_Link b = true -> _id b = VNone) /\
  (is_Link b = false -> truthy url = false -> truthy (_url b) = false).
Proof.
  intros (-> & Hl & _)%init_Ok Hn Hrun.
  destruct (run_no_restyle ops _ b Hn Hrun) as (Hs & Hi & Hu).
  unfold is_Link in *. simpl in *. rewrite Hs.
  split; [reflexivity | split].
  - intros El. rewrite (Hi El), El. reflexivity.
  - exact Hu.
Qed.

Lemma never_restyled_witness :
  _style {| _style := VInt 5; _label := VStr ""; _id := VNone;
            _url := VStr "https://example.org"; _disabled := VBool false;
            _emoji := Some smile |} = VInt 5 /\
  _id {| _style := VInt 5; _label := VStr ""; _id := VNone;
         _url := VStr "https://example.org"; _disabled := VBool false;
         _emoji := Some smile |} = VNone.
Proof.
  pose proof (never_restyled 7 (VStr "Visit") (VInt 5) VNone
                (VStr "https://example.com") (VBool false) VNone
                [SetEmoji (VStr "smile"); SetLabel (VStr "");
                 SetUrl (VStr "https://example.org")] _ _
                eq_refl eq_refl eq_refl) as (H1 & H2 & _).
  exact (conj H1 (H2 eq_refl)).
Defined.

(** ** Emoji arguments of other types *)

(** X15: an emoji argument that is true but neither an [Emoji], a
    [PartialEmoji] nor a string (42, [True], a non-empty dictionary) passes
    the label-or-emoji check and is then dropped: with an empty label and a
    colour style, construction succeeds and returns a button with neither
    label nor emoji. *)
Theorem init_drops_emoji_of_other_type (u : N) (label : value) (style : Z)
    (id url disabled emoji : value) :
  emoji_supported emoji = false -> truthy emoji = true ->
  truthy label = false -> 1 <= style <= 4 ->
  exists b,
    __init__ u label (VInt style) id url disabled emoji = Ok b /\
    _emoji b = None /\ _label b = label /\ inv_visible b = false.
Proof.
  intros Hs Ht Hl Hr.
  rewrite init_accepts.
  - eexists. split; [reflexivity|]. simpl.
    assert (He : emoji_of_arg emoji = None)
      by (destruct emoji; simpl in *; congruence).
    rewrite He. split; [reflexivity | split; [reflexivity|]].
    unfold inv_visible, non_empty. simpl. rewrite Hl. reflexivity.
  - unfold eq_int, ButtonStyle.URL. simpl.
    intros H. apply Z.eqb_eq in H. lia.
  - unfold between, ButtonStyle.URL. simpl. f_equal.
    apply andb_true_iff. split; apply Z.leb_le; lia.
  - right. exact Ht.
Qed.

Lemma init_drops_emoji_of_other_type_witness :
  exists b,
    __init__ 7 (VStr "") (VInt 2) (VStr "go-1") VNone (VBool false)
      (VInt 42) = Ok b /\
    _emoji b = None /\ _label b = VStr "" /\ inv_visible b = false.
Proof.
  exact (init_drops_emoji_of_other_type 7 (VStr "") 2 (VStr "go-1") VNone
           (VBool false) (VInt 42) eq_refl eq_refl eq_refl ltac:(lia)).
Defined.

(** ** Setters and the dictionary *)

(** X16: a successful assignment of label, disabled or identifier changes
    the dictionary under that one key and nowhere else; a successful
    assignment of the url changes it under ["url"] on a URL button and not
    at all on any other button. *)
Theorem to_dict_after_setter (b b' : Button) (v : value) :
  (set_label b v = Ok b' -> to_dict b' = <["label" := v]> (to_dict b)) /\
  (set_disabled b v = Ok b' ->
   to_dict b' = <["disabled" := v]> (to_dict b)) /\
  (set_id b v = Ok b' -> to_dict b' = <["custom_id" := v]> (to_dict b)) /\
  (set_url b v = Ok b' ->
   to_dict b' = if is_Link b then <["url" := v]> (to_dict b) else to_dict b).
Proof.
  unfold is_Link.
  split; [|split; [|split]].
  - unfold set_label.
    destruct (negb (truthy v) && negb (bool_decide (is_Some (emoji b))));
      [discriminate|]. intros [= <-].
    unfold to_dict, emoji, style, label, id, url, disabled. simpl.
    destruct (_emoji b); apply map_eq; intros k;
      rewrite ?lookup_insert, ?lookup_singleton;
      repeat case_decide; subst; try reflexivity; congruence.
  - unfold set_disabled. intros [= <-].
    unfold to_dict, emoji, style, label, id, url, disabled. simpl.
    destruct (_emoji b); apply map_eq; intros k;
      rewrite ?lookup_insert, ?lookup_singleton;
      repeat case_decide; subst; try reflexivity; congruence.
  - unfold set_id.
    destruct (eq_int (style b) ButtonStyle.URL); [discriminate|].
    intros [= <-].
    unfold to_dict, emoji, style, label, id, url, disabled. simpl.
    destruct (_emoji b); apply map_eq; intros k;
      rewrite ?lookup_insert, ?lookup_singleton;
      repeat case_decide; subst; try reflexivity; congruence.
  - unfold set_url, style.
    destruct (eq_int (_style b) ButtonStyle.URL) eqn:El;
      rewrite ?andb_false_r, ?andb_true_r; simpl.
    + intros [= <-].
      unfold to_dict, emoji, style, label, id, url, disabled. simpl.
      rewrite El.
      destruct (_emoji b); apply map_eq; intros k;
        rewrite ?lookup_insert, ?lookup_singleton;
        repeat case_decide; subst; try reflexivity; congruence.
    + destruct (truthy v); [discriminate|]. intros [= <-].
      unfold to_dict, emoji, style, label, id, url, disabled. simpl.
      rewrite El. reflexivity.
Qed.

Lemma to_dict_after_setter_witness :
  to_dict {| _style := VInt 2; _label := VStr "Go"; _id := VStr "go-1";
             _url := VStr ""; _disabled := VBool false; _emoji := None |} =
  to_dict go_button.
Proof.
  exact (proj2 (proj2 (proj2
           (to_dict_after_setter go_button _ (VStr ""))))
           eq_refl).
Defined.

(** ** What from_json establishes *)

Lemma emoji_of_wire_Ok (e a : value) :
  emoji_of_wire e = Ok a -> a = VNone \/ exists p, a = VPartialEmoji p.
Proof.
  unfold emoji_of_wire. destruct (truthy e); [|intros [= <-]; auto].
  destruct e as [| | | | | |d]; try discriminate.
  destruct (getitem d "name") as [n|x]; simpl; [|discriminate].
  intros [= <-]. eauto.
Qed.

(** X17: every button that [from_json] returns, whatever the dictionary,
    has a style in [1,5] and a non-empty label or an emoji; if it is a URL
    button its url is non-empty and its identifier is [None]; otherwise its
    identifier is non-empty. *)
Theorem from_json_establishes (u : N) (data : dict) (b : Button) :
  from_json u data = Ok b ->
  inv_style b = true /\ inv_visible b = true /\ inv_link b = true /\
  (is_Link b = false -> truthy (_id b) = true).
Proof.
  unfold from_json, getitem.
  destruct (data !! "style") as [s|]; simpl; [|discriminate].
  destruct (emoji_of_wire (get data "emoji" VNone)) as [a|x] eqn:Ea; simpl;
    [|discriminate].
  intros (-> & Hl & Hr & Hv)%init_Ok.
  unfold inv_style, inv_visible, inv_link, is_Link, non_empty. simpl.
  unfold between in Hr.
  destruct (as_number s) as [n|]; [|discriminate].
  injection Hr as Hr. unfold ButtonStyle.URL in Hr at 1.
  split; [exact Hr | split; [|split]].
  - destruct Hv as [-> | Hv]; [reflexivity|].
    apply emoji_of_wire_Ok in Ea as [-> | [p ->]]; [discriminate|].
    simpl. apply orb_true_r.
  - destruct (eq_int s ButtonStyle.URL) eqn:El; simpl; [|reflexivity].
    destruct (Hl eq_refl) as [-> _]. reflexivity.
  - intros ->. apply truthy_py_or_uuid.
Qed.

Lemma from_json_establishes_witness :
  inv_link {| _style := VInt 5; _label := VStr "Visit"; _id := VNone;
              _url := VStr "https://example.com"; _disabled := VBool false;
              _emoji := None |} = true.
Proof.
  exact (proj1 (proj2 (proj2
           (from_json_establishes 7
              {[ "style" := VInt 5; "label" := VStr "Visit";
                 "url" := VStr "https://example.com" ]} _ eq_refl)))).
Defined.
